(** * Soft-skills quiz (src/analyzer.py): shallow embedding and properties

    The Python module is a console quiz: immutable [Answer] records,
    [SoftSkillQuestion] objects validated at construction, a mutable [User]
    and a [SoftSkillsQuiz] session that reads choices from standard input.

    Python objects are records, Python [int] is [Z], exceptions are the
    [Raise] branch of [res], the console is an explicit pair of an input
    stream (the lines still to be read) and an output trace.  Python's
    [float] is IEEE binary64, taken from the Standard Library's executable
    specification [SpecFloat] at precision 53. *)

From Stdlib Require Import ZArith List String Ascii Bool Lia.
From Stdlib Require Import Floats.SpecFloat.
From Stdlib Require DecimalString.
Import ListNotations.

Local Open Scope string_scope.
Local Open Scope list_scope.
Local Open Scope Z_scope.

(** ** Exceptions and results *)

Inductive exn : Type :=
| ValueError
| IndexError
| EOFError
| ZeroDivisionError
| OverflowError.

Inductive res (A : Type) : Type :=
| Ok (a : A)
| Raise (e : exn).

Arguments Ok {A} a.
Arguments Raise {A} e.

Definition bind {A B : Type} (m : res A) (k : A -> res B) : res B :=
  match m with
  | Ok a => k a
  | Raise e => Raise e
  end.

Notation "x <- m ;; k" := (bind m (fun x => k))
  (at level 61, m at next level, right associativity).

(** ** The Python builtins the module relies on *)

Module Py.

(** [len(l)] *)
Definition len {A : Type} (l : list A) : Z := Z.of_nat (List.length l).

(** [l[i]]: a negative index counts from the end, an index outside
    [-len(l), len(l)) raises IndexError. *)
Definition index {A : Type} (l : list A) (i : Z) : res A :=
  let j := if i <? 0 then i + len l else i in
  if (0 <=? j) && (j <? len l) then
    match nth_error l (Z.to_nat j) with
    | Some a => Ok a
    | None => Raise IndexError
    end
  else Raise IndexError.

(** [any(f(x) for x in l)] *)
Definition any {A : Type} (f : A -> bool) (l : list A) : bool := existsb f l.

(** [sum(f(x) for x in l)], accumulated from the left starting at 0. *)
Definition sum {A : Type} (f : A -> Z) (l : list A) : Z :=
  fold_left (fun acc x => acc + f x) l 0.

(** binary64 *)
Definition prec : Z := 53.
Definition emax : Z := 1024.
Definition float : Type := spec_float.

(** [float(z)], rounded to nearest even. *)
Definition float_of_Z (z : Z) : float := binary_normalize prec emax z 0 false.

(** The integer [z] as an exact, not yet rounded, operand. *)
Definition exact_of_Z (z : Z) : float :=
  match z with
  | Z0 => S754_zero false
  | Zpos p => S754_finite false p 0
  | Zneg p => S754_finite true p 0
  end.

(** [a / b] on two ints: the correctly rounded quotient; a zero divisor
    raises ZeroDivisionError, a quotient beyond the range of a float
    raises OverflowError. *)
Definition truediv (a b : Z) : res float :=
  if b =? 0 then Raise ZeroDivisionError
  else
    match SFdiv prec emax (exact_of_Z a) (exact_of_Z b) with
    | S754_infinity _ => Raise OverflowError
    | f => Ok f
    end.

Definition fmul (x y : float) : float := SFmul prec emax x y.

(** A Python number as [_show_results] handles it: an int or a float. *)
Inductive num : Type :=
| Int (z : Z)
| Float (f : float).

(** [x >= k] for a number [x] and an int literal [k] that a float holds
    exactly. *)
Definition ge_int (x : num) (k : Z) : bool :=
  match x with
  | Int z => k <=? z
  | Float f => SFleb (float_of_Z k) f
  end.

(** ** Dictionaries in insertion order, as [dict] keeps them *)

Fixpoint dict_get (d : list (string * Z)) (k : string) (default : Z) : Z :=
  match d with
  | [] => default
  | (k', v) :: d' => if String.eqb k' k then v else dict_get d' k default
  end.

Fixpoint dict_set (d : list (string * Z)) (k : string) (v : Z)
  : list (string * Z) :=
  match d with
  | [] => [(k, v)]
  | (k', v') :: d' =>
      if String.eqb k' k then (k', v) :: d' else (k', v') :: dict_set d' k v
  end.

End Py.

(** ** Data model *)

Inductive QuestionType : Type :=
| COMMUNICATION
| TEAMWORK
| LEADERSHIP
| CONFLICT
| FEEDBACK.

(** [QuestionType.value] *)
Definition value (t : QuestionType) : string :=
  match t with
  | COMMUNICATION => "Коммуникация"
  | TEAMWORK => "Командная работа"
  | LEADERSHIP => "Лидерство"
  | CONFLICT => "Разрешение конфликтов"
  | FEEDBACK => "Работа с обратной связью"
  end.

Record Answer : Type := mkAnswer {
  text : string;
  is_correct : bool;
  explanation : string
}.

Record SoftSkillQuestion : Type := mkQuestion {
  question_text : string;
  answers : list Answer;
  question_type : QuestionType;
  difficulty : Z
}.

Record User : Type := mkUser {
  name : string;
  score : Z;
  answered_questions : list SoftSkillQuestion
}.

Record SoftSkillsQuiz : Type := mkQuiz {
  user : User;
  questions : list SoftSkillQuestion;
  current_question_index : Z
}.

(** ** SoftSkillQuestion *)

(** [_validate_answers]: raises ValueError unless some answer is correct. *)
Definition _validate_answers (self : SoftSkillQuestion) : res unit :=
  if negb (Py.any is_correct (answers self)) then Raise ValueError
  else Ok tt.

(** [SoftSkillQuestion.__init__]: the four fields are stored, then the
    answers are validated; the object exists only if validation passes. *)
Definition SoftSkillQuestion_init (question_text : string)
    (answers : list Answer) (question_type : QuestionType) (difficulty : Z)
  : res SoftSkillQuestion :=
  let self := mkQuestion question_text answers question_type difficulty in
  _ <- _validate_answers self ;;
  Ok self.

Definition get_correct_answers (self : SoftSkillQuestion) : list Answer :=
  filter is_correct (answers self).

Definition check_answer (self : SoftSkillQuestion) (answer_index : Z)
  : res bool :=
  if (0 <=? answer_index) && (answer_index <? Py.len (answers self)) then
    a <- Py.index (answers self) answer_index ;;
    Ok (is_correct a)
  else Ok false.

(** [SoftSkillQuestion.__str__] *)
Definition SoftSkillQuestion_str (self : SoftSkillQuestion) : string :=
  ("[" ++ value (question_type self) ++ "] " ++ question_text self)%string.

(** ** QuestionFactory *)

Module QuestionFactory.

Definition create_communication_question : res SoftSkillQuestion :=
  SoftSkillQuestion_init
    "Как вы поступите, если коллега постоянно срывает сроки сдачи общей работы?"
    [ mkAnswer "Сделаю работу за него, чтобы не подвести команду" false
        "Это может привести к выгоранию и не решает корень проблемы";
      mkAnswer "Открыто обсужу проблему с коллегой и предложу помощь" true
        "Прямая коммуникация помогает найти причины проблемы и совместно решить ее";
      mkAnswer "Немедленно доложу руководителю о ситуации" false
        "Сначала стоит попытаться решить вопрос напрямую с коллегой" ]
    COMMUNICATION
    2.

Definition create_teamwork_question : res SoftSkillQuestion :=
  SoftSkillQuestion_init
    "Во время совещания возникает конфликт между двумя членами команды. Ваши действия?"
    [ mkAnswer "Прерву дискуссию и перенесу обсуждение на другое время" false
        "Может отложить, но не решить проблему";
      mkAnswer "Выслушаю обе стороны и предложу компромиссное решение" true
        "Активное посредничество помогает найти взаимоприемлемое решение";
      mkAnswer "Предоставлю участникам самостоятельно разобраться в конфликте" false
        "Без посредничества конфликт может усугубиться" ]
    CONFLICT
    3.

(** [create_random_question]: [random.choice] over the two creators; the
    draw is the argument [second], which tells whether the second creator
    of the list is the one chosen. *)
Definition create_random_question (second : bool) : res SoftSkillQuestion :=
  if second then create_teamwork_question else create_communication_question.

End QuestionFactory.

(** ** User *)

Definition User_init (name : string) : User := mkUser name 0 [].

Definition add_score (self : User) (points : Z) : User :=
  mkUser (name self) (score self + points) (answered_questions self).

(** ** SoftSkillsQuiz: construction *)

Definition _load_default_questions : res (list SoftSkillQuestion) :=
  q1 <- QuestionFactory.create_communication_question ;;
  q2 <- QuestionFactory.create_teamwork_question ;;
  q3 <- SoftSkillQuestion_init
          "Как вы будете действовать при получении негативной обратной связи о своей работе?"
          [ mkAnswer "Защищаю свою позицию и объясню, почему поступил именно так" false
              "Защита может восприниматься как неготовность к развитию";
            mkAnswer "Выслушаю критику, задам уточняющие вопросы и разработаю план улучшений" true
              "Проактивный подход к обратной связи показывает зрелость и готовность развиваться";
            mkAnswer "Поблагодарю за обратную связь, но не буду менять свой подход к работе" false
              "Игнорирование обратной связи мешает профессиональному росту" ]
          FEEDBACK
          2 ;;
  Ok [q1; q2; q3].

(** [SoftSkillsQuiz.__init__]: [questions or self._load_default_questions()]
    keeps a non-empty list and replaces [None] and the empty list, both
    falsy, by the defaults. *)
Definition SoftSkillsQuiz_init (user : User)
    (questions : option (list SoftSkillQuestion)) : res SoftSkillsQuiz :=
  qs <- match questions with
        | Some (q :: qs') => Ok (q :: qs')
        | Some [] | None => _load_default_questions
        end ;;
  Ok (mkQuiz user qs 0).

(** ** The console *)

Inductive Verdict : Type :=
| Excellent   (* the message printed for at least 80 percent *)
| Good        (* the message printed for at least 60 percent *)
| NeedsWork.  (* the message printed below 60 percent *)

(** One constructor per [print] (or [input] prompt) of the module, carrying
    the values formatted into the line; the constant separator lines are
    not recorded. *)
Inductive output : Type :=
| PrintWelcome (user_name : string)
| PrintQuestion (number : Z) (question : string)
| PrintDifficulty (stars : Z)
| PrintOption (i : Z) (answer_text : string)
| Prompt (user_name : string) (options : Z)
| PrintCorrect (points : Z) (why : string)
| PrintWrong (why : string)
| PrintRightAnswer (answer_text : string)
| PrintRangeHint (options : Z)
| PrintNumberHint
| PrintSummary (user_name : string) (total : Z) (answered : Z)
| PrintCategory (category : string) (count : Z)
| PrintPercentage (percentage : Py.num)
| PrintVerdict (v : Verdict).

Record console : Type := mkConsole {
  stdin : list string;     (* the lines not read yet *)
  stdout : list output     (* what has been printed, oldest first *)
}.

Definition print (c : console) (o : list output) : console :=
  mkConsole (stdin c) (stdout c ++ o).

(** What a method call leaves behind: its result or exception, the session
    object and the console. *)
Record outcome (A : Type) : Type := mkOutcome {
  result : res A;
  quiz_after : SoftSkillsQuiz;
  console_after : console
}.

Arguments mkOutcome {A} _ _ _.
Arguments result {A} _.
Arguments quiz_after {A} _.
Arguments console_after {A} _.

(** [enumerate(l, start)] *)
Fixpoint enumerate {A : Type} (l : list A) (start : Z) : list (Z * A) :=
  match l with
  | [] => []
  | x :: l' => (start, x) :: enumerate l' (start + 1)
  end.

(** ** SoftSkillsQuiz: the session *)

Section Session.

(** [int(s)] on a line of input: [None] when it raises ValueError. *)
Variable py_int : string -> option Z.

(** The effect of a valid choice: lines 177-196 of the source. *)
Definition accept_choice (self : SoftSkillsQuiz) (question : SoftSkillQuestion)
    (selected_answer : Answer) (c : console) : outcome bool :=
  let '(user1, c1) :=
    if is_correct selected_answer then
      let points := difficulty question * 10 in
      (add_score (user self) points,
       print c [PrintCorrect points (explanation selected_answer)])
    else
      let c' := print c [PrintWrong (explanation selected_answer)] in
      let correct := get_correct_answers question in
      (user self,
       match correct with
       | first :: _ => print c' [PrintRightAnswer (text first)]
       | [] => c'
       end) in
  let user2 :=
    mkUser (name user1) (score user1)
           (answered_questions user1 ++ [question]) in
  mkOutcome (Ok (is_correct selected_answer))
            (mkQuiz user2 (questions self) (current_question_index self + 1))
            c1.

(** The [while True] loop of [ask_question], by recursion on the lines
    still to be read; [input] raises EOFError when there is none, and
    that exception is not caught. *)
Fixpoint read_choice (self : SoftSkillsQuiz) (question : SoftSkillQuestion)
    (lines : list string) (out : list output) : outcome bool :=
  let n := Py.len (answers question) in
  let out := out ++ [Prompt (name (user self)) n] in
  match lines with
  | [] => mkOutcome (Raise EOFError) self (mkConsole [] out)
  | line :: rest =>
      match py_int line with
      | None => read_choice self question rest (out ++ [PrintNumberHint])
      | Some choice =>
          if (1 <=? choice) && (choice <=? n) then
            match Py.index (answers question) (choice - 1) with
            | Ok selected_answer =>
                accept_choice self question selected_answer
                              (mkConsole rest out)
            | Raise e => mkOutcome (Raise e) self (mkConsole rest out)
            end
          else read_choice self question rest (out ++ [PrintRangeHint n])
      end
  end.

Definition ask_question (self : SoftSkillsQuiz) (c : console)
  : outcome bool :=
  if current_question_index self >=? Py.len (questions self) then
    mkOutcome (Ok false) self c
  else
    match Py.index (questions self) (current_question_index self) with
    | Raise e => mkOutcome (Raise e) self c
    | Ok question =>
        let c1 :=
          print c
            ([ PrintQuestion (current_question_index self + 1)
                             (SoftSkillQuestion_str question);
               PrintDifficulty (difficulty question) ]
             ++ map (fun ia => PrintOption (fst ia) (text (snd ia)))
                    (enumerate (answers question) 1)) in
        read_choice self question (stdin c1) (stdout c1)
    end.

Definition get_score (self : SoftSkillsQuiz) : Z := score (user self).

(** [max_score] of [_show_results] *)
Definition max_score (self : SoftSkillsQuiz) : Z :=
  Py.sum (fun q => difficulty q * 10) (questions self).

(** [percentage] of [_show_results]: a float if [max_score > 0], else the
    int 0. *)
Definition percentage (self : SoftSkillsQuiz) : res Py.num :=
  if max_score self >? 0 then
    ratio <- Py.truediv (score (user self)) (max_score self) ;;
    Ok (Py.Float (Py.fmul ratio (Py.float_of_Z 100)))
  else Ok (Py.Int 0).

Definition verdict (percentage : Py.num) : Verdict :=
  if Py.ge_int percentage 80 then Excellent
  else if Py.ge_int percentage 60 then Good
  else NeedsWork.

(** [categories] of [_show_results] *)
Definition categories (self : SoftSkillsQuiz) : list (string * Z) :=
  fold_left
    (fun d question =>
       let cat := value (question_type question) in
       Py.dict_set d cat (Py.dict_get d cat 0 + 1))
    (answered_questions (user self)) [].

Definition _show_results (self : SoftSkillsQuiz) (c : console)
  : outcome unit :=
  let c1 :=
    print c
      ([ PrintSummary (name (user self)) (score (user self))
                      (Py.len (answered_questions (user self))) ]
       ++ map (fun kv => PrintCategory (fst kv) (snd kv)) (categories self)) in
  match percentage self with
  | Raise e => mkOutcome (Raise e) self c1
  | Ok p =>
      mkOutcome (Ok tt) self (print c1 [PrintPercentage p; PrintVerdict (verdict p)])
  end.

(** The [while] loop of [run_quiz].  Every iteration that continues has
    read at least one line, so [fuel] above the number of pending lines
    is never used up; [None] is fuel exhaustion. *)
Fixpoint run_loop (fuel : nat) (self : SoftSkillsQuiz) (c : console)
  : option (outcome unit) :=
  match fuel with
  | O => None
  | S fuel' =>
      if current_question_index self <? Py.len (questions self) then
        let o := ask_question self c in
        match result o with
        | Raise e => Some (mkOutcome (Raise e) (quiz_after o) (console_after o))
        | Ok _ => run_loop fuel' (quiz_after o) (console_after o)
        end
      else Some (mkOutcome (Ok tt) self c)
  end.

Definition run_quiz (self : SoftSkillsQuiz) (c : console)
  : option (outcome unit) :=
  let c1 := print c [PrintWelcome (name (user self))] in
  match run_loop (S (List.length (stdin c1))) self c1 with
  | None => None
  | Some o =>
      match result o with
      | Raise e => Some o
      | Ok _ => Some (_show_results (quiz_after o) (console_after o))
      end
  end.

End Session.

(** ** A reading of [int] on ASCII decimal text

    [int] accepts surrounding whitespace, one optional sign, and decimal
    digits that single underscores may separate.  The session is stated
    over any [py_int]; this reader is the one used to run it. *)

Definition is_space (a : ascii) : bool :=
  let n := Z.of_N (N_of_ascii a) in
  ((9 <=? n) && (n <=? 13)) || ((28 <=? n) && (n <=? 32)).

Definition digit_of (a : ascii) : option Z :=
  let n := Z.of_N (N_of_ascii a) in
  if (48 <=? n) && (n <=? 57) then Some (n - 48) else None.

Fixpoint lstrip (s : list ascii) : list ascii :=
  match s with
  | a :: s' => if is_space a then lstrip s' else s
  | [] => []
  end.

Definition strip (s : list ascii) : list ascii :=
  rev (lstrip (rev (lstrip s))).

Fixpoint digits (s : list ascii) (acc : Z) (after_digit : bool) : option Z :=
  match s with
  | [] => if after_digit then Some acc else None
  | a :: s' =>
      match digit_of a with
      | Some d => digits s' (10 * acc + d) true
      | None =>
          if Ascii.eqb a "_" && after_digit then digits s' acc false else None
      end
  end.

Definition int_ascii (line : string) : option Z :=
  match strip (list_ascii_of_string line) with
  | a :: s' =>
      if Ascii.eqb a "-" then option_map Z.opp (digits s' 0 false)
      else if Ascii.eqb a "+" then digits s' 0 false
      else digits (a :: s') 0 false
  | [] => None
  end.

(** ** The claims as the specification words them, for comparison *)

(** "percentage = score / (sum over all configured questions of
    difficulty×10) × 100, treating a zero denominator as 0%" *)
Definition spec_percentage (self : SoftSkillsQuiz) : res Py.num :=
  if max_score self =? 0 then Ok (Py.Int 0)
  else
    ratio <- Py.truediv (score (user self)) (max_score self) ;;
    Ok (Py.Float (Py.fmul ratio (Py.float_of_Z 100))).

(** The sum over the questions of difficulty × 10, by recursion. *)
Fixpoint total_points (qs : list SoftSkillQuestion) : Z :=
  match qs with
  | [] => 0
  | q :: qs' => difficulty q * 10 + total_points qs'
  end.



(** The first lines of [ask_question]'s output: the question and its
    options. *)
Definition question_output (self : SoftSkillsQuiz)
    (question : SoftSkillQuestion) : list output :=
  [ PrintQuestion (current_question_index self + 1)
                  (SoftSkillQuestion_str question);
    PrintDifficulty (difficulty question) ]
  ++ map (fun ia => PrintOption (fst ia) (text (snd ia)))
         (enumerate (answers question) 1).

(** ** Sessions used as examples *)

(** The three default questions. *)
Definition default_questions : list SoftSkillQuestion :=
  match _load_default_questions with
  | Ok qs => qs
  | Raise _ => []
  end.

(** A fresh session of user "Test" over the default questions. *)
Definition test_quiz : SoftSkillsQuiz :=
  mkQuiz (User_init "Test") default_questions 0.

(** The same session after three answers. *)
Definition finished_quiz : SoftSkillsQuiz :=
  mkQuiz (mkUser "Test" 70 default_questions) default_questions 3.

(** A question with one correct answer and the given difficulty. *)
Definition plain_question (d : Z) : SoftSkillQuestion :=
  mkQuestion "q" [mkAnswer "a" true EmptyString] COMMUNICATION d.


(** The first default question, and the console of a user who types
    "abc", then "99", then "2". *)
Definition first_question : SoftSkillQuestion :=
  nth 0 default_questions (plain_question 1).

Definition scenario_console : console := mkConsole ["abc"; "99"; "2"] [].

(** ** The remaining methods, and notions to state their properties *)

(** [str(z)] for an int: decimal digits, with a minus sign when negative. *)
Definition str_of_int (z : Z) : string :=
  DecimalString.NilZero.string_of_int (Z.to_int z).

(** [User.__str__] *)
Definition User_str (self : User) : string :=
  ("Пользователь: " ++ name self ++ ", Очки: " ++ str_of_int (score self))%string.

(** A session as the constructor and [ask_question] leave it: the index is
    within the list of questions and the history of the user is the
    questions asked so far, in order. *)
Definition in_progress (self : SoftSkillsQuiz) : Prop :=
  0 <= current_question_index self <= Py.len (questions self)
  /\ answered_questions (user self)
     = firstn (Z.to_nat (current_question_index self)) (questions self).




(** How many questions of a list carry a category label, or a category. *)
Definition label_count (k : string) (qs : list SoftSkillQuestion) : Z :=
  Py.len (filter (fun q => String.eqb (value (question_type q)) k) qs).

Definition QuestionType_eqb (t t' : QuestionType) : bool :=
  match t, t' with
  | COMMUNICATION, COMMUNICATION
  | TEAMWORK, TEAMWORK
  | LEADERSHIP, LEADERSHIP
  | CONFLICT, CONFLICT
  | FEEDBACK, FEEDBACK => true
  | _, _ => false
  end.

Definition type_count (t : QuestionType) (qs : list SoftSkillQuestion) : Z :=
  Py.len (filter (fun q => QuestionType_eqb (question_type q) t) qs).

(** The sum of the counts of a dictionary. *)
Fixpoint dict_total (d : list (string * Z)) : Z :=
  match d with
  | [] => 0
  | (_, v) :: d' => v + dict_total d'
  end.

Definition float_one : Py.float := S754_finite false 4503599627370496 (-52).
Definition float_hundred : Py.float := S754_finite false 7036874417766400 (-46).


(** The labels of a list in the order in which each is met first, leaving
    out those already [seen]. *)
Fixpoint first_occurrences (seen : list string) (labels : list string)
  : list string :=
  match labels with
  | [] => []
  | k :: labels' =>
      if existsb (fun k' => String.eqb k' k) seen then
        first_occurrences seen labels'
      else k :: first_occurrences (seen ++ [k]) labels'
  end.

(** The body of the counting loop of [_show_results], from any
    dictionary. *)
Definition count_step (d : list (string * Z)) (question : SoftSkillQuestion)
  : list (string * Z) :=
  let cat := value (question_type question) in
  Py.dict_set d cat (Py.dict_get d cat 0 + 1).

(** * Properties *)

(** ** Indexing and sums *)


Lemma index_in_range {A : Type} (l : list A) (i : Z) :
  0 <= i < Py.len l ->
  exists a, nth_error l (Z.to_nat i) = Some a /\ Py.index l i = Ok a.
Proof.
  intros Hi. unfold Py.index.
  destruct (Z.ltb_spec i 0) as [Hneg | _]; [lia |].
  destruct (Z.leb_spec 0 i) as [_ | Hneg]; [| lia].
  destruct (Z.ltb_spec i (Py.len l)) as [_ | Hbig]; [| lia].
  simpl.
  destruct (nth_error l (Z.to_nat i)) as [a |] eqn:Hnth.
  - exists a. split; reflexivity.
  - apply nth_error_None in Hnth. unfold Py.len in Hi. lia.
Qed.

Lemma sum_from {A : Type} (f : A -> Z) (l : list A) (a : Z) :
  fold_left (fun acc x => acc + f x) l a
  = a + fold_left (fun acc x => acc + f x) l 0.
Proof.
  revert a. induction l as [| x l IH]; intros a; simpl.
  - lia.
  - rewrite (IH (a + f x)), (IH (f x)). lia.
Qed.

Lemma max_score_total (self : SoftSkillsQuiz) :
  max_score self = total_points (questions self).
Proof.
  unfold max_score, Py.sum.
  induction (questions self) as [| q qs IH]; simpl.
  - reflexivity.
  - rewrite sum_from, IH. reflexivity.
Qed.

Lemma total_points_positive (qs : list SoftSkillQuestion) :
  qs <> [] ->
  Forall (fun q => 1 <= difficulty q) qs ->
  0 < total_points qs.
Proof.
  intros Hne Hall.
  destruct qs as [| q qs]; [congruence |].
  inversion Hall as [| q' qs' Hq Hqs]; subst.
  assert (Hrest : 0 <= total_points qs).
  { clear Hne Hall Hq. induction Hqs as [| q' qs' Hq' _ IH]; simpl; lia. }
  simpl. lia.
Qed.

(** ** SoftSkillQuestion *)

Lemma any_false_iff {A : Type} (f : A -> bool) (l : list A) :
  Py.any f l = false <-> forall a, In a l -> f a = false.
Proof.
  unfold Py.any. induction l as [| x l IH]; simpl.
  - split; [intros _ a [] | reflexivity].
  - rewrite orb_false_iff, IH. split.
    + intros [Hx Hl] a [<- | Ha]; auto.
    + intros H. split; [apply H; now left | intros a Ha; apply H; now right].
Qed.

(** C1: [check_answer] raises for no integer; inside [0, len(answers)) it
    returns the flag stored at that position, outside (negative indices
    included) it returns false. *)
Theorem check_answer_spec (self : SoftSkillQuestion) (i : Z) :
  (exists b, check_answer self i = Ok b)
  /\ (0 <= i < Py.len (answers self) ->
      exists a, nth_error (answers self) (Z.to_nat i) = Some a
                /\ check_answer self i = Ok (is_correct a))
  /\ (i < 0 \/ Py.len (answers self) <= i -> check_answer self i = Ok false).
Proof.
  assert (Hin : 0 <= i < Py.len (answers self) ->
                exists a, nth_error (answers self) (Z.to_nat i) = Some a
                          /\ check_answer self i = Ok (is_correct a)).
  { intros Hi. destruct (index_in_range (answers self) i Hi) as (a & Hnth & Hidx).
    exists a. split; [exact Hnth |].
    unfold check_answer. rewrite Hidx.
    destruct (Z.leb_spec 0 i); [| lia].
    destruct (Z.ltb_spec i (Py.len (answers self))); [| lia].
    reflexivity. }
  assert (Hout : i < 0 \/ Py.len (answers self) <= i ->
                 check_answer self i = Ok false).
  { intros Hi. unfold check_answer.
    destruct (Z.leb_spec 0 i); destruct (Z.ltb_spec i (Py.len (answers self)));
      simpl; try reflexivity. lia. }
  split; [| split; assumption].
  destruct (Z_lt_le_dec i 0) as [Hneg | Hpos].
  - exists false. apply Hout. now left.
  - destruct (Z_lt_le_dec i (Py.len (answers self))) as [Hlt | Hge].
    + destruct Hin as (a & _ & Ha); [lia |]. now exists (is_correct a).
    + exists false. apply Hout. now right.
Qed.

(** C2: construction raises ValueError exactly when no answer of the given
    sequence is marked correct; with a correct answer it succeeds and the
    object holds the four arguments as given. *)
Theorem SoftSkillQuestion_init_spec (question_text : string)
    (answers : list Answer) (question_type : QuestionType) (difficulty : Z) :
  (SoftSkillQuestion_init question_text answers question_type difficulty
   = Raise ValueError
   <-> forall a, In a answers -> is_correct a = false)
  /\ ((exists a, In a answers /\ is_correct a = true) ->
      SoftSkillQuestion_init question_text answers question_type difficulty
      = Ok (mkQuestion question_text answers question_type difficulty)).
Proof.
  unfold SoftSkillQuestion_init, _validate_answers. simpl.
  destruct (Py.any is_correct answers) eqn:Hany; simpl.
  - split.
    + split; [discriminate |].
      intros Hnone. apply any_false_iff in Hnone. congruence.
    + reflexivity.
  - split.
    + split; [intros _; now apply any_false_iff | reflexivity].
    + intros (a & Ha & Hc).
      rewrite (proj1 (any_false_iff _ _) Hany a Ha) in Hc. discriminate.
Qed.

(** C9, as the code has it: the constructor stores the difficulty it is
    given and does not check it, so the object has difficulty at least 1
    exactly when the argument has. *)
Theorem SoftSkillQuestion_init_difficulty (question_text : string)
    (answers : list Answer) (question_type : QuestionType) (d : Z)
    (q : SoftSkillQuestion) :
  SoftSkillQuestion_init question_text answers question_type d = Ok q ->
  difficulty q = d /\ (1 <= difficulty q <-> 1 <= d).
Proof.
  unfold SoftSkillQuestion_init, _validate_answers. simpl.
  destruct (Py.any is_correct answers); simpl; [| discriminate].
  intros [= <-]. simpl. split; [reflexivity | tauto].
Qed.

(** ** User *)

(** C6, as the code has it: [add_score] adds its argument to the score, so
    the score does not decrease when the argument is non-negative. *)
Theorem add_score_spec (self : User) (points : Z) :
  score (add_score self points) = score self + points
  /\ (0 <= points -> score self <= score (add_score self points)).
Proof.
  unfold add_score. simpl. split; [reflexivity | lia].
Qed.

(** ** The session *)

Section SessionFacts.

Variable py_int : string -> option Z.




Lemma ask_question_unfold (self : SoftSkillsQuiz) (c : console)
    (question : SoftSkillQuestion) :
  current_question_index self < Py.len (questions self) ->
  Py.index (questions self) (current_question_index self) = Ok question ->
  ask_question py_int self c
  = read_choice py_int self question (stdin c)
      (stdout c ++ question_output self question).
Proof.
  intros Hidx Hq. unfold ask_question. rewrite Hq.
  destruct (Z.geb_spec (current_question_index self) (Py.len (questions self)));
    [lia | reflexivity].
Qed.


Lemma accept_choice_quiz (self : SoftSkillsQuiz) (question : SoftSkillQuestion)
    (selected : Answer) (c : console) :
  let o := accept_choice self question selected c in
  result o = Ok (is_correct selected)
  /\ score (user (quiz_after o))
     = score (user self)
       + (if is_correct selected then 10 * difficulty question else 0)
  /\ current_question_index (quiz_after o) = current_question_index self + 1
  /\ answered_questions (user (quiz_after o))
     = answered_questions (user self) ++ [question]
  /\ name (user (quiz_after o)) = name (user self)
  /\ questions (quiz_after o) = questions self
  /\ stdin (console_after o) = stdin c.
Proof.
  unfold accept_choice.
  destruct (is_correct selected); cbn -[Z.mul Z.add].
  - repeat split; (reflexivity || lia).
  - destruct (get_correct_answers question); cbn -[Z.mul Z.add];
      repeat split; (reflexivity || lia).
Qed.


(** C4: once [current_question_index] has reached the number of
    questions, [ask_question] returns false and changes nothing: the
    session object (score, history and index with it) and the console are
    those it was given. *)
Theorem ask_question_exhausted (self : SoftSkillsQuiz) (c : console) :
  Py.len (questions self) <= current_question_index self ->
  ask_question py_int self c = mkOutcome (Ok false) self c.
Proof.
  intros Hidx. unfold ask_question.
  destruct (Z.geb_spec (current_question_index self) (Py.len (questions self)));
    [reflexivity | lia].
Qed.



End SessionFacts.

(** ** Termination of [run_quiz] *)

Section RunQuiz.

Variable py_int : string -> option Z.

Lemma read_choice_consumes (self : SoftSkillsQuiz)
    (question : SoftSkillQuestion) (lines : list string) (out : list output)
    (b : bool) :
  result (read_choice py_int self question lines out) = Ok b ->
  (List.length (stdin (console_after
                         (read_choice py_int self question lines out)))
   < List.length lines)%nat.
Proof.
  revert out. induction lines as [| line rest IH]; intros out.
  - simpl. discriminate.
  - cbn [read_choice].
    destruct (py_int line) as [choice |].
    + destruct ((1 <=? choice) && (choice <=? Py.len (answers question))).
      * destruct (Py.index (answers question) (choice - 1)) as [selected | e].
        -- intros _.
           destruct (accept_choice_quiz self question selected
                       (mkConsole rest
                          (out ++ [Prompt (name (user self))
                                          (Py.len (answers question))])))
             as (_ & _ & _ & _ & _ & _ & Hrest).
           rewrite Hrest. simpl. lia.
        -- simpl. discriminate.
      * intros H. specialize (IH _ H). simpl. lia.
    + intros H. specialize (IH _ H). simpl. lia.
Qed.

Lemma ask_question_consumes (self : SoftSkillsQuiz) (c : console) (b : bool) :
  current_question_index self < Py.len (questions self) ->
  result (ask_question py_int self c) = Ok b ->
  (List.length (stdin (console_after (ask_question py_int self c)))
   < List.length (stdin c))%nat.
Proof.
  intros Hidx. unfold ask_question.
  destruct (Z.geb_spec (current_question_index self) (Py.len (questions self)));
    [lia |].
  destruct (Py.index (questions self) (current_question_index self))
    as [question | e]; [| simpl; discriminate].
  intros Hres. now apply read_choice_consumes in Hres.
Qed.

Lemma run_loop_total (fuel : nat) (self : SoftSkillsQuiz) (c : console) :
  (List.length (stdin c) < fuel)%nat ->
  exists o, run_loop py_int fuel self c = Some o.
Proof.
  revert self c. induction fuel as [| fuel IH]; intros self c Hfuel; [lia |].
  cbn [run_loop].
  destruct (Z.ltb_spec (current_question_index self) (Py.len (questions self)))
    as [Hidx | _]; [| eexists; reflexivity].
  destruct (result (ask_question py_int self c)) as [b | e] eqn:Hres;
    [| eexists; reflexivity].
  apply IH.
  pose proof (ask_question_consumes self c b Hidx Hres). lia.
Qed.

(** [run_quiz] on a finite input always comes to an end: with a report,
    or with the exception that stopped it. *)
Lemma run_quiz_total (self : SoftSkillsQuiz) (c : console) :
  exists o, run_quiz py_int self c = Some o.
Proof.
  unfold run_quiz.
  destruct (run_loop_total
              (S (List.length (stdin (print c [PrintWelcome (name (user self))]))))
              self (print c [PrintWelcome (name (user self))]))
    as (o & Ho); [lia |].
  rewrite Ho. destruct (result o); eexists; reflexivity.
Qed.

End RunQuiz.

(** ** The final report *)

Lemma percentage_agrees (self : SoftSkillsQuiz) :
  0 <= max_score self -> percentage self = spec_percentage self.
Proof.
  intros Hmax. unfold percentage, spec_percentage.
  destruct (Z.gtb_spec (max_score self) 0);
    destruct (Z.eqb_spec (max_score self) 0); try reflexivity; lia.
Qed.


(** C7: user "Test" takes the three default questions and selects option 2
    each time: the session ends with score 70 out of a maximum of 70, the
    percentage is the float 100.0, and the report closes with the message
    of the top band. *)
Theorem default_session_all_correct :
  SoftSkillsQuiz_init (User_init "Test") None = Ok test_quiz
  /\ exists o,
       run_quiz int_ascii test_quiz (mkConsole ["2"; "2"; "2"] []) = Some o
       /\ result o = Ok tt
       /\ get_score (quiz_after o) = 70
       /\ max_score (quiz_after o) = 70
       /\ current_question_index (quiz_after o) = 3
       /\ percentage (quiz_after o) = Ok (Py.Float (Py.float_of_Z 100))
       /\ Py.float_of_Z 100 = S754_finite false 7036874417766400 (-46)
       /\ verdict (Py.Float (Py.float_of_Z 100)) = Excellent
       /\ exists printed,
            stdout (console_after o)
            = printed ++ [ PrintPercentage (Py.Float (Py.float_of_Z 100));
                           PrintVerdict Excellent ].
Proof.
  split; [reflexivity |].
  eexists. split; [vm_compute; reflexivity |].
  repeat (split; [vm_compute; reflexivity |]).
  eexists (_ :: _ :: _ :: _ :: _ :: _ :: _ :: _ :: _ :: _ ::
           _ :: _ :: _ :: _ :: _ :: _ :: _ :: _ :: _ :: _ ::
           _ :: _ :: _ :: _ :: _ :: _ :: []).
  vm_compute. reflexivity.
Qed.

(** The same three questions with option 1, a wrong answer, each time:
    score 0, percentage 0.0, the message of the lowest band. *)
Example default_session_all_wrong :
  exists o,
    run_quiz int_ascii test_quiz (mkConsole ["1"; "1"; "1"] []) = Some o
    /\ result o = Ok tt
    /\ get_score (quiz_after o) = 0
    /\ percentage (quiz_after o) = Ok (Py.Float (S754_zero false))
    /\ verdict (Py.Float (S754_zero false)) = NeedsWork
    /\ last (stdout (console_after o)) PrintNumberHint = PrintVerdict NeedsWork.
Proof.
  eexists. split; [vm_compute; reflexivity |].
  repeat split; vm_compute; reflexivity.
Qed.

(** ** Construction of a session *)

(** C10, as the code has it: [None] and the empty list both load the three
    default questions (maximum score 70); every session the constructor
    builds has at least one question, and its maximum score is strictly
    positive when all its questions have difficulty at least 1. *)
Theorem SoftSkillsQuiz_init_spec (u : User)
    (qs : option (list SoftSkillQuestion)) :
  exists quiz,
    SoftSkillsQuiz_init u qs = Ok quiz
    /\ user quiz = u
    /\ current_question_index quiz = 0
    /\ (qs = None \/ qs = Some [] ->
        _load_default_questions = Ok (questions quiz)
        /\ List.length (questions quiz) = 3%nat
        /\ max_score quiz = 70)
    /\ questions quiz <> []
    /\ (Forall (fun q => 1 <= difficulty q) (questions quiz) ->
        0 < max_score quiz).
Proof.
  assert (Hpos : forall quiz, questions quiz <> [] ->
                 Forall (fun q => 1 <= difficulty q) (questions quiz) ->
                 0 < max_score quiz).
  { intros quiz Hne Hall. rewrite max_score_total.
    now apply total_points_positive. }
  destruct qs as [[| q qs'] |].
  - exists (mkQuiz u default_questions 0).
    split; [reflexivity |]. split; [reflexivity |]. split; [reflexivity |].
    split; [intros _; repeat split; reflexivity |].
    split; [discriminate |]. apply Hpos. discriminate.
  - exists (mkQuiz u (q :: qs') 0).
    split; [reflexivity |]. split; [reflexivity |]. split; [reflexivity |].
    split; [intros [H | H]; discriminate |].
    split; [discriminate |]. apply Hpos. discriminate.
  - exists (mkQuiz u default_questions 0).
    split; [reflexivity |]. split; [reflexivity |]. split; [reflexivity |].
    split; [intros _; repeat split; reflexivity |].
    split; [discriminate |]. apply Hpos. discriminate.
Qed.

(** * The claims on concrete sessions *)

Ltac run := vm_compute; try reflexivity; try discriminate.

Ltac in_range := unfold Py.len; cbn; lia.

(** The first default question: index 1 holds the correct answer, -1 and 3
    are out of range. *)
Lemma check_answer_spec_witness :
  (exists a, nth_error (answers first_question) (Z.to_nat 1) = Some a
             /\ check_answer first_question 1 = Ok (is_correct a))
  /\ check_answer first_question (-1) = Ok false
  /\ check_answer first_question 3 = Ok false.
Proof.
  split; [| split].
  - apply (proj1 (proj2 (check_answer_spec first_question 1))). in_range.
  - apply (proj2 (proj2 (check_answer_spec first_question (-1)))). left. lia.
  - apply (proj2 (proj2 (check_answer_spec first_question 3))). right. in_range.
Defined.

(** Two answers, none correct, then one correct. *)
Lemma SoftSkillQuestion_init_spec_witness :
  SoftSkillQuestion_init "q" [mkAnswer "a" false EmptyString; mkAnswer "b" false EmptyString]
                         TEAMWORK 1
  = Raise ValueError
  /\ SoftSkillQuestion_init "q" [mkAnswer "a" false EmptyString; mkAnswer "b" true EmptyString]
                            TEAMWORK 1
     = Ok (mkQuestion "q" [mkAnswer "a" false EmptyString; mkAnswer "b" true EmptyString]
                      TEAMWORK 1).
Proof.
  split.
  - apply (proj1 (SoftSkillQuestion_init_spec
                    "q" [mkAnswer "a" false EmptyString; mkAnswer "b" false EmptyString]
                    TEAMWORK 1)).
    intros a [<- | [<- | []]]; reflexivity.
  - apply (proj2 (SoftSkillQuestion_init_spec
                    "q" [mkAnswer "a" false EmptyString; mkAnswer "b" true EmptyString]
                    TEAMWORK 1)).
    exists (mkAnswer "b" true EmptyString). split; [right; left |]; reflexivity.
Defined.


(** The session after its three questions. *)
Lemma ask_question_exhausted_witness :
  ask_question int_ascii finished_quiz scenario_console
  = mkOutcome (Ok false) finished_quiz scenario_console.
Proof.
  apply (ask_question_exhausted int_ascii finished_quiz scenario_console).
  in_range.
Defined.



(** Twenty points for a fresh user. *)
Lemma add_score_spec_witness :
  score (User_init "Test") <= score (add_score (User_init "Test") 20).
Proof.
  apply (proj2 (add_score_spec (User_init "Test") 20)). lia.
Defined.

(** The first default question is built with difficulty 2. *)
Lemma SoftSkillQuestion_init_difficulty_witness :
  difficulty first_question = 2
  /\ (1 <= difficulty first_question <-> 1 <= 2).
Proof.
  apply (SoftSkillQuestion_init_difficulty
           "Как вы поступите, если коллега постоянно срывает сроки сдачи общей работы?"
           (answers first_question) COMMUNICATION 2 first_question).
  reflexivity.
Defined.

(** A session built from the empty list. *)
Lemma SoftSkillsQuiz_init_spec_witness :
  exists quiz,
    SoftSkillsQuiz_init (User_init "Test") (Some []) = Ok quiz
    /\ user quiz = User_init "Test"
    /\ current_question_index quiz = 0
    /\ (Some (@nil SoftSkillQuestion) = None
        \/ Some (@nil SoftSkillQuestion) = Some [] ->
        _load_default_questions = Ok (questions quiz)
        /\ List.length (questions quiz) = 3%nat
        /\ max_score quiz = 70)
    /\ questions quiz <> []
    /\ (Forall (fun q => 1 <= difficulty q) (questions quiz) ->
        0 < max_score quiz).
Proof.
  exact (SoftSkillsQuiz_init_spec (User_init "Test") (Some [])).
Defined.

(** ** Where the specification says more than the code does *)


(** C6: a negative argument lowers the score. *)
Lemma add_score_negative :
  score (add_score (User_init "Test") (-5)) = -5
  /\ ~ (score (User_init "Test") <= score (add_score (User_init "Test") (-5))).
Proof. split; [reflexivity | cbn; lia]. Qed.

(** C9: construction with difficulty 0 succeeds and the object has
    difficulty 0. *)
Lemma question_of_difficulty_zero :
  exists q,
    SoftSkillQuestion_init "q" [mkAnswer "a" true EmptyString] COMMUNICATION 0 = Ok q
    /\ ~ (1 <= difficulty q).
Proof. exists (plain_question 0). split; [reflexivity | cbn; lia]. Qed.

(** C10: a session built over one question of difficulty 0 has maximum
    score 0. *)
Lemma session_without_points :
  exists quiz,
    SoftSkillsQuiz_init (User_init "Test") (Some [plain_question 0]) = Ok quiz
    /\ ~ (0 < max_score quiz).
Proof.
  exists (mkQuiz (User_init "Test") [plain_question 0] 0).
  split; [reflexivity | cbn; lia].
Qed.

(** * Further properties of the module *)

(** ** Questions and their correct answers *)

Lemma check_answer_in_range (self : SoftSkillQuestion) (i : Z) (a : Answer) :
  0 <= i < Py.len (answers self) ->
  nth_error (answers self) (Z.to_nat i) = Some a ->
  check_answer self i = Ok (is_correct a).
Proof.
  intros Hi Hnth.
  destruct (index_in_range (answers self) i Hi) as (a' & Hnth' & Hidx).
  unfold check_answer. rewrite Hidx.
  destruct (Z.leb_spec 0 i); [| lia].
  destruct (Z.ltb_spec i (Py.len (answers self))); [| lia].
  simpl. congruence.
Qed.

Lemma check_answer_true_inv (self : SoftSkillQuestion) (i : Z) :
  check_answer self i = Ok true ->
  0 <= i < Py.len (answers self)
  /\ exists a, nth_error (answers self) (Z.to_nat i) = Some a
               /\ is_correct a = true.
Proof.
  unfold check_answer.
  destruct (Z.leb_spec 0 i); destruct (Z.ltb_spec i (Py.len (answers self)));
    simpl; try discriminate.
  intros Hcheck. split; [lia |].
  destruct (index_in_range (answers self) i) as (a & Hnth & Hidx); [lia |].
  rewrite Hidx in Hcheck. simpl in Hcheck.
  exists a. split; [exact Hnth | congruence].
Qed.

Lemma position_of {A : Type} (l : list A) (a : A) :
  In a l ->
  exists i, 0 <= i < Py.len l /\ nth_error l (Z.to_nat i) = Some a.
Proof.
  intros Ha. apply In_nth_error in Ha as (n & Hn).
  exists (Z.of_nat n). rewrite Nat2Z.id. split; [| exact Hn].
  assert (n < List.length l)%nat by (apply nth_error_Some; congruence).
  unfold Py.len. lia.
Qed.

(** X1: a question that the constructor has accepted has a correct answer
    to show: [get_correct_answers] is not empty, all it returns are correct
    answers of the question, and [check_answer] is true at some index. *)
Theorem constructed_question_has_correct_answer (question_text : string)
    (ans : list Answer) (question_type : QuestionType) (d : Z)
    (q : SoftSkillQuestion) :
  SoftSkillQuestion_init question_text ans question_type d = Ok q ->
  get_correct_answers q <> []
  /\ (forall a, In a (get_correct_answers q) ->
                In a (answers q) /\ is_correct a = true)
  /\ exists i, 0 <= i < Py.len (answers q) /\ check_answer q i = Ok true.
Proof.
  unfold SoftSkillQuestion_init, _validate_answers. simpl.
  destruct (Py.any is_correct ans) eqn:Hany; simpl; [| discriminate].
  intros [= <-]. simpl.
  apply existsb_exists in Hany as (a & Ha & Hc).
  split; [| split].
  - intros Hnil.
    assert (Hin : In a (get_correct_answers
                          (mkQuestion question_text ans question_type d))).
    { apply filter_In. now split. }
    rewrite Hnil in Hin. exact Hin.
  - intros a' Ha'. now apply filter_In in Ha'.
  - destruct (position_of ans a Ha) as (i & Hi & Hnth).
    exists i. split; [exact Hi |].
    rewrite (check_answer_in_range
               (mkQuestion question_text ans question_type d) i a Hi Hnth).
    now rewrite Hc.
Qed.

(** X2: [check_answer] and [get_correct_answers] agree, for any question
    object: [check_answer(i)] is true exactly when [i] is in range and
    [answers[i]] is one of the answers [get_correct_answers] returns; and
    [get_correct_answers] is empty exactly when [check_answer] is false at
    every index. *)
Theorem check_answer_get_correct_answers (self : SoftSkillQuestion) :
  (forall i,
     check_answer self i = Ok true
     <-> 0 <= i < Py.len (answers self)
         /\ exists a, nth_error (answers self) (Z.to_nat i) = Some a
                      /\ In a (get_correct_answers self))
  /\ (get_correct_answers self = []
      <-> forall i, check_answer self i = Ok false).
Proof.
  split.
  - intros i. split.
    + intros Hcheck.
      destruct (check_answer_true_inv self i Hcheck) as (Hi & a & Hnth & Hc).
      split; [exact Hi |]. exists a. split; [exact Hnth |].
      apply filter_In. split; [| exact Hc].
      now apply nth_error_In in Hnth.
    + intros (Hi & a & Hnth & Ha).
      apply filter_In in Ha as [_ Hc].
      rewrite (check_answer_in_range self i a Hi Hnth). now rewrite Hc.
  - split.
    + intros Hnil i.
      destruct (Z_lt_le_dec i 0) as [Hneg | Hpos];
        [| destruct (Z_lt_le_dec i (Py.len (answers self))) as [Hlt | Hge]].
      * unfold check_answer. destruct (Z.leb_spec 0 i); [lia | reflexivity].
      * destruct (index_in_range (answers self) i) as (a & Hnth & _); [lia |].
        rewrite (check_answer_in_range self i a) by (lia || exact Hnth).
        destruct (is_correct a) eqn:Hc; [| reflexivity].
        assert (Hin : In a (get_correct_answers self)).
        { apply filter_In. split; [now apply nth_error_In in Hnth | exact Hc]. }
        rewrite Hnil in Hin. destruct Hin.
      * unfold check_answer.
        destruct (Z.ltb_spec i (Py.len (answers self))); [lia |].
        now rewrite andb_false_r.
    + intros Hall.
      destruct (get_correct_answers self) as [| a rest] eqn:Hget;
        [reflexivity |].
      assert (Hin : In a (get_correct_answers self)) by (rewrite Hget; now left).
      apply filter_In in Hin as [Ha Hc].
      destruct (position_of (answers self) a Ha) as (i & Hi & Hnth).
      specialize (Hall i).
      rewrite (check_answer_in_range self i a Hi Hnth), Hc in Hall.
      discriminate.
Qed.

(** X3: the hard-coded questions pass validation.  Each factory, the random
    factory for either draw, and the default list are built without an
    exception; each of these questions has three answers, exactly one of
    them correct, at index 1, and a difficulty of at least 1. *)
Theorem factories_build_valid_questions :
  (forall second,
     exists q,
       QuestionFactory.create_random_question second = Ok q
       /\ (QuestionFactory.create_communication_question = Ok q
           \/ QuestionFactory.create_teamwork_question = Ok q))
  /\ exists q1 q2 q3,
       QuestionFactory.create_communication_question = Ok q1
       /\ QuestionFactory.create_teamwork_question = Ok q2
       /\ _load_default_questions = Ok [q1; q2; q3]
       /\ Forall (fun q =>
                    Py.len (answers q) = 3
                    /\ List.length (get_correct_answers q) = 1%nat
                    /\ check_answer q 1 = Ok true
                    /\ 1 <= difficulty q)
                 [q1; q2; q3].
Proof.
  split.
  - intros [|]; eexists; (split; [reflexivity |]); [right | left]; reflexivity.
  - do 3 eexists.
    split; [reflexivity |]. split; [reflexivity |]. split; [reflexivity |].
    repeat constructor; vm_compute; congruence.
Qed.

(** ** One call of [ask_question] *)

Lemma firstn_snoc {A : Type} (l : list A) (n : nat) (x : A) :
  nth_error l n = Some x -> firstn (S n) l = firstn n l ++ [x].
Proof.
  revert n. induction l as [| y l IH]; intros [| n] Hnth; simpl in *;
    try discriminate.
  - now injection Hnth as ->.
  - now rewrite <- IH.
Qed.

Lemma total_points_app (qs qs' : list SoftSkillQuestion) :
  total_points (qs ++ qs') = total_points qs + total_points qs'.
Proof. induction qs as [| q qs IH]; simpl; lia. Qed.



Section SessionSteps.

Variable py_int : string -> option Z.

(** The loop ends in one of two ways: the input runs out, or an answer of
    the question is selected. *)
Lemma read_choice_cases (self : SoftSkillsQuiz) (question : SoftSkillQuestion)
    (lines : list string) (out : list output) :
  let o := read_choice py_int self question lines out in
  (result o = Raise EOFError /\ quiz_after o = self
   /\ stdin (console_after o) = [])
  \/ (exists selected c',
        In selected (answers question)
        /\ o = accept_choice self question selected c'
        /\ (List.length (stdin c') < List.length lines)%nat).
Proof.
  revert out. induction lines as [| line rest IH]; intros out; cbn zeta.
  - left. repeat split.
  - cbn [read_choice].
    assert (Hnext : forall out',
              (result (read_choice py_int self question rest out')
               = Raise EOFError
               /\ quiz_after (read_choice py_int self question rest out') = self
               /\ stdin (console_after
                           (read_choice py_int self question rest out')) = [])
              \/ (exists selected c',
                    In selected (answers question)
                    /\ read_choice py_int self question rest out'
                       = accept_choice self question selected c'
                    /\ (List.length (stdin c') < List.length (line :: rest))%nat)).
    { intros out'. destruct (IH out') as [Heof | (selected & c' & Hin & Heq & Hlen)].
      - now left.
      - right. exists selected, c'. simpl. repeat split; auto. }
    destruct (py_int line) as [choice |]; [| apply Hnext].
    destruct (Z.leb_spec 1 choice);
      destruct (Z.leb_spec choice (Py.len (answers question)));
      cbn [andb]; try apply Hnext.
    destruct (index_in_range (answers question) (choice - 1))
      as (selected & Hnth & Hidx); [lia |].
    rewrite Hidx. right.
    eexists selected, _. split; [now apply nth_error_In in Hnth |].
    split; [reflexivity | simpl; lia].
Qed.

Lemma ask_question_cases (self : SoftSkillsQuiz) (c : console) :
  0 <= current_question_index self < Py.len (questions self) ->
  exists question,
    nth_error (questions self) (Z.to_nat (current_question_index self))
    = Some question
    /\ let o := ask_question py_int self c in
       (result o = Raise EOFError /\ quiz_after o = self
        /\ stdin (console_after o) = [])
       \/ (exists selected c',
             In selected (answers question)
             /\ o = accept_choice self question selected c'
             /\ (List.length (stdin c') < List.length (stdin c))%nat).
Proof.
  intros Hidx.
  destruct (index_in_range (questions self) (current_question_index self) Hidx)
    as (question & Hnth & Hq).
  exists question. split; [exact Hnth |]. cbn zeta.
  rewrite (ask_question_unfold py_int self c question) by (lia || exact Hq).
  apply read_choice_cases.
Qed.





Lemma ask_question_invariant (self : SoftSkillsQuiz) (c : console) :
  in_progress self ->
  let self' := quiz_after (ask_question py_int self c) in
  in_progress self'
  /\ (Forall (fun q => 0 <= difficulty q) (questions self) ->
      0 <= score (user self)
      <= total_points (answered_questions (user self)) ->
      0 <= score (user self')
      <= total_points (answered_questions (user self'))).
Proof.
  intros [Hidx Hhist] self'. subst self'.
  destruct (Z_lt_le_dec (current_question_index self) (Py.len (questions self)))
    as [Hlt | Hge].
  - destruct (ask_question_cases self c)
      as (question & Hnth &
          [(_ & Hquiz & _) | (selected & c' & Hsel & Hask & _)]); [lia | |].
    + rewrite Hquiz. split; [split; assumption | auto].
    + rewrite Hask.
      destruct (accept_choice_quiz self question selected c')
        as (_ & Hscore & Hnext & Hhist' & _ & Hqs & _).
      split.
      * split; [rewrite Hqs; lia |].
        rewrite Hhist', Hnext, Hqs, Hhist.
        replace (Z.to_nat (current_question_index self + 1))
          with (S (Z.to_nat (current_question_index self))) by lia.
        symmetry. now apply firstn_snoc.
      * intros Hall Hbound.
        rewrite Hscore, Hhist', total_points_app. cbn [total_points].
        assert (0 <= difficulty question).
        { apply nth_error_In in Hnth.
          exact (proj1 (Forall_forall _ _) Hall question Hnth). }
        destruct (is_correct selected); lia.
  - unfold ask_question.
    destruct (Z.geb_spec (current_question_index self) (Py.len (questions self)));
      [| lia].
    simpl. split; [split; assumption | auto].
Qed.

(** X8: [ask_question] keeps a session in order, whatever the input: the
    index stays within the list, the history stays the questions asked so
    far, the index never goes back and moves by at most one; and, when no
    question has a negative difficulty, a score between 0 and the points of
    the questions asked stays so. *)
Theorem ask_question_keeps_session (self : SoftSkillsQuiz) (c : console) :
  in_progress self ->
  let self' := quiz_after (ask_question py_int self c) in
  in_progress self'
  /\ current_question_index self <= current_question_index self'
     <= current_question_index self + 1
  /\ (Forall (fun q => 0 <= difficulty q) (questions self) ->
      0 <= score (user self)
      <= total_points (answered_questions (user self)) ->
      0 <= score (user self')
      <= total_points (answered_questions (user self'))).
Proof.
  intros Hself self'. subst self'.
  destruct (ask_question_invariant self c Hself) as [Hself' Hscore].
  split; [exact Hself' |]. split; [| exact Hscore].
  destruct Hself as [Hidx _].
  destruct (Z_lt_le_dec (current_question_index self) (Py.len (questions self)))
    as [Hlt | Hge].
  - destruct (ask_question_cases self c)
      as (question & _ &
          [(_ & Hquiz & _) | (selected & c' & _ & Hask & _)]); [lia | |].
    + rewrite Hquiz. lia.
    + rewrite Hask.
      destruct (accept_choice_quiz self question selected c')
        as (_ & _ & Hnext & _).
      lia.
  - unfold ask_question.
    destruct (Z.geb_spec (current_question_index self) (Py.len (questions self)));
      [| lia].
    simpl. lia.
Qed.

End SessionSteps.

(** ** A whole run *)



Section Runs.

Variable py_int : string -> option Z.



End Runs.

Section RunQuizOutcome.

Variable py_int : string -> option Z.



End RunQuizOutcome.

(** ** The categories of the report *)

Lemma dict_get_set (d : list (string * Z)) (k k' : string) (v default : Z) :
  Py.dict_get (Py.dict_set d k v) k' default
  = if String.eqb k k' then v else Py.dict_get d k' default.
Proof.
  induction d as [| [k0 v0] d IH]; simpl.
  - destruct (String.eqb_spec k k'); reflexivity.
  - destruct (String.eqb_spec k0 k) as [-> | Hk0]; simpl.
    + destruct (String.eqb_spec k k'); reflexivity.
    + destruct (String.eqb_spec k0 k') as [-> | Hk0'].
      * destruct (String.eqb_spec k k'); [congruence | reflexivity].
      * exact IH.
Qed.

Lemma dict_total_bump (d : list (string * Z)) (k : string) :
  dict_total (Py.dict_set d k (Py.dict_get d k 0 + 1)) = dict_total d + 1.
Proof.
  induction d as [| [k0 v0] d IH]; simpl.
  - reflexivity.
  - destruct (String.eqb k0 k); simpl; lia.
Qed.

Lemma dict_keys_set (d : list (string * Z)) (k : string) (v : Z) :
  map fst (Py.dict_set d k v)
  = if existsb (fun k' => String.eqb k' k) (map fst d) then map fst d
    else map fst d ++ [k].
Proof.
  induction d as [| [k0 v0] d IH]; simpl.
  - reflexivity.
  - destruct (String.eqb k0 k); simpl; [reflexivity |].
    rewrite IH. now destruct (existsb _ (map fst d)).
Qed.

Lemma dict_values_bump (d : list (string * Z)) (k : string) :
  Forall (fun kv => 1 <= snd kv) d ->
  Forall (fun kv => 1 <= snd kv) (Py.dict_set d k (Py.dict_get d k 0 + 1)).
Proof.
  induction 1 as [| [k0 v0] d Hv Hd IH]; simpl.
  - repeat constructor. simpl. lia.
  - destruct (String.eqb k0 k); constructor; simpl in *; auto; lia.
Qed.

Lemma first_occurrences_fresh (seen labels : list string) :
  NoDup seen -> NoDup (seen ++ first_occurrences seen labels).
Proof.
  revert seen. induction labels as [| k labels IH]; intros seen Hseen; simpl.
  - now rewrite app_nil_r.
  - destruct (existsb (fun k' => String.eqb k' k) seen) eqn:Hk;
      [now apply IH |].
    change (k :: first_occurrences (seen ++ [k]) labels)
      with ([k] ++ first_occurrences (seen ++ [k]) labels).
    rewrite app_assoc. apply IH.
    apply NoDup_app; [exact Hseen | repeat constructor; intros [] |].
    intros k' Hk' [<- | []].
    assert (Hex : existsb (fun k'' => String.eqb k'' k) seen = true).
    { apply existsb_exists. exists k. split; [exact Hk' | apply String.eqb_refl]. }
    congruence.
Qed.

Section Categories.

Lemma counting_get (qs : list SoftSkillQuestion) (d : list (string * Z))
    (k : string) :
  Py.dict_get (fold_left count_step qs d) k 0
  = Py.dict_get d k 0 + label_count k qs.
Proof.
  revert d. induction qs as [| q qs IH]; intros d.
  - unfold label_count, Py.len. simpl. lia.
  - cbn [fold_left]. rewrite IH. unfold count_step. cbn zeta.
    rewrite dict_get_set. unfold label_count, Py.len. cbn [filter].
    destruct (String.eqb_spec (value (question_type q)) k) as [-> | _];
      cbn [List.length]; lia.
Qed.

Lemma counting_total (qs : list SoftSkillQuestion) (d : list (string * Z)) :
  dict_total (fold_left count_step qs d) = dict_total d + Py.len qs.
Proof.
  revert d. induction qs as [| q qs IH]; intros d.
  - unfold Py.len. simpl. lia.
  - cbn [fold_left]. rewrite IH. unfold count_step. cbn zeta.
    rewrite dict_total_bump. unfold Py.len. cbn [List.length]. lia.
Qed.

Lemma counting_keys (qs : list SoftSkillQuestion) (d : list (string * Z)) :
  map fst (fold_left count_step qs d)
  = map fst d
    ++ first_occurrences (map fst d)
         (map (fun q => value (question_type q)) qs).
Proof.
  revert d. induction qs as [| q qs IH]; intros d.
  - simpl. now rewrite app_nil_r.
  - cbn [fold_left map first_occurrences]. rewrite IH.
    unfold count_step. cbn zeta. rewrite dict_keys_set.
    destruct (existsb (fun k' => String.eqb k' (value (question_type q)))
                      (map fst d)); [reflexivity |].
    now rewrite <- app_assoc.
Qed.

Lemma counting_values (qs : list SoftSkillQuestion) (d : list (string * Z)) :
  Forall (fun kv => 1 <= snd kv) d ->
  Forall (fun kv => 1 <= snd kv) (fold_left count_step qs d).
Proof.
  revert d. induction qs as [| q qs IH]; intros d Hd; [exact Hd |].
  cbn [fold_left]. apply IH. now apply dict_values_bump.
Qed.

Lemma label_count_type (t : QuestionType) (qs : list SoftSkillQuestion) :
  label_count (value t) qs = type_count t qs.
Proof.
  unfold label_count, type_count. f_equal. apply filter_ext.
  intros q. destruct (question_type q), t; reflexivity.
Qed.

(** X11: the category table of the report counts the history.  Looking up
    a label gives the number of answered questions that carry it (0 for a
    label that is absent), the five categories have five different labels so
    this is the number of answered questions of that category, and the
    counts add up to the number of answered questions. *)
Theorem categories_count_history (self : SoftSkillsQuiz) :
  (forall k,
     Py.dict_get (categories self) k 0
     = label_count k (answered_questions (user self)))
  /\ (forall t,
        Py.dict_get (categories self) (value t) 0
        = type_count t (answered_questions (user self)))
  /\ dict_total (categories self) = Py.len (answered_questions (user self)).
Proof.
  unfold categories.
  change (fun d question =>
            let cat := value (question_type question) in
            Py.dict_set d cat (Py.dict_get d cat 0 + 1)) with count_step.
  split; [| split].
  - intros k. now rewrite counting_get.
  - intros t. now rewrite counting_get, label_count_type.
  - now rewrite counting_total.
Qed.

(** X12: the category table lists each label once, in the order in which
    the categories first occur in the history, and every count it lists is
    at least 1. *)
Theorem categories_first_occurrence (self : SoftSkillsQuiz) :
  map fst (categories self)
  = first_occurrences []
      (map (fun q => value (question_type q)) (answered_questions (user self)))
  /\ NoDup (map fst (categories self))
  /\ Forall (fun kv => 1 <= snd kv) (categories self).
Proof.
  unfold categories.
  change (fun d question =>
            let cat := value (question_type question) in
            Py.dict_set d cat (Py.dict_get d cat 0 + 1)) with count_step.
  rewrite counting_keys. cbn [map app].
  split; [reflexivity |]. split.
  - apply (first_occurrences_fresh []). constructor.
  - apply counting_values. constructor.
Qed.

End Categories.

(** ** The percentage at both ends *)

Lemma div_eucl_exact (a b : Z) : 0 < b -> Z.div_eucl (a * b) b = (a, 0).
Proof.
  intros Hb.
  pose proof (Z.div_eucl_eq (a * b) b ltac:(lia)) as Heq.
  pose proof (Z.mod_pos_bound (a * b) b Hb) as Hmod.
  unfold Z.modulo in Hmod.
  destruct (Z.div_eucl (a * b) b) as [q r].
  assert (r = 0 /\ q = a) as [-> ->]; [| reflexivity].
  assert (Hr : r = (a - q) * b) by lia.
  assert (a - q = 0) by nia. split; nia.
Qed.

Lemma div_core_self (p : positive) :
  SFdiv_core_binary Py.prec Py.emax (Z.pos p) 0 (Z.pos p) 0
  = (9007199254740992, -53, loc_Exact).
Proof.
  unfold SFdiv_core_binary.
  rewrite !Z.add_0_r, !Z.sub_diag.
  change (Z.min (fexp Py.prec Py.emax 0) 0) with (-53).
  change (0 - -53) with 53.
  cbv iota beta.
  rewrite Z.shiftl_mul_pow2 by lia.
  change (BinNums.IntDef.Z.div_eucl (Z.pos p * 2 ^ 53) (Z.pos p))
    with (Z.div_eucl (Z.pos p * 2 ^ 53) (Z.pos p)).
  rewrite (Z.mul_comm (Z.pos p)), div_eucl_exact by lia.
  f_equal. unfold new_location, new_location_even, new_location_odd.
  now destruct (BinNums.IntDef.Z.even (Z.pos p)).
Qed.

(** An int divided by itself is the float 1.0, however large it is. *)
Lemma truediv_self (m : Z) : 0 < m -> Py.truediv m m = Ok float_one.
Proof.
  intros Hm. unfold Py.truediv.
  destruct (Z.eqb_spec m 0); [lia |].
  destruct m as [| p | p]; try lia.
  unfold Py.exact_of_Z, SFdiv. rewrite div_core_self.
  vm_compute. reflexivity.
Qed.


(** X13: a full score is reported as exactly 100.0 and gets the top
    verdict, whatever the positive maximum is: the division of the score by
    itself and the product by 100 are exact in binary64. *)
Theorem percentage_of_full_score (self : SoftSkillsQuiz) :
  0 < max_score self ->
  score (user self) = max_score self ->
  percentage self = Ok (Py.Float float_hundred)
  /\ Py.float_of_Z 100 = float_hundred
  /\ verdict (Py.Float float_hundred) = Excellent.
Proof.
  intros Hmax Hscore. split; [| split; reflexivity].
  unfold percentage. rewrite Hscore.
  destruct (Z.gtb_spec (max_score self) 0); [| lia].
  rewrite truediv_self by exact Hmax. reflexivity.
Qed.


(** * The further properties on concrete sessions *)

(** The first default question, as its factory builds it. *)
Lemma constructed_question_has_correct_answer_witness :
  get_correct_answers first_question <> []
  /\ (forall a, In a (get_correct_answers first_question) ->
                In a (answers first_question) /\ is_correct a = true)
  /\ exists i, 0 <= i < Py.len (answers first_question)
               /\ check_answer first_question i = Ok true.
Proof.
  apply (constructed_question_has_correct_answer
           (question_text first_question) (answers first_question)
           COMMUNICATION 2 first_question).
  reflexivity.
Defined.

(** Index 1 of the first default question holds its correct answer. *)
Lemma check_answer_get_correct_answers_witness :
  check_answer first_question 1 = Ok true.
Proof.
  apply (proj2 (proj1 (check_answer_get_correct_answers first_question) 1)).
  split; [in_range |].
  exists (nth 1 (answers first_question) (mkAnswer "a" true EmptyString)).
  split; [reflexivity |]. apply filter_In.
  split; [cbn; right; left; reflexivity | reflexivity].
Defined.





Lemma ask_question_keeps_session_witness :
  let self' := quiz_after (ask_question int_ascii test_quiz scenario_console) in
  in_progress self'
  /\ current_question_index test_quiz <= current_question_index self'
     <= current_question_index test_quiz + 1
  /\ (Forall (fun q => 0 <= difficulty q) (questions test_quiz) ->
      0 <= score (user test_quiz)
      <= total_points (answered_questions (user test_quiz)) ->
      0 <= score (user self')
      <= total_points (answered_questions (user self'))).
Proof.
  apply (ask_question_keeps_session int_ascii test_quiz scenario_console).
  split; [in_range | reflexivity].
Defined.



(** The session after three correct answers: 70 out of 70. *)
Lemma percentage_of_full_score_witness :
  percentage finished_quiz = Ok (Py.Float float_hundred)
  /\ Py.float_of_Z 100 = float_hundred
  /\ verdict (Py.Float float_hundred) = Excellent.
Proof.
  apply (percentage_of_full_score finished_quiz); run.
Defined.


(** A score too large for the float division: the report stops with
    OverflowError after the summary. *)
Example show_results_overflow :
  result (_show_results
            (mkQuiz (mkUser "Test" (10 ^ 400) default_questions)
                    default_questions 3)
            (mkConsole [] []))
  = Raise OverflowError.
Proof. vm_compute. reflexivity. Qed.

(** [User.__str__] of a user with 70 points, and of one with -5. *)
Example User_str_examples :
  User_str (mkUser "Test" 70 []) = "Пользователь: Test, Очки: 70"
  /\ User_str (mkUser "Test" (-5) []) = "Пользователь: Test, Очки: -5".
Proof. split; reflexivity. Qed.
